(** * Model of [src/sdk/func_call.py]: tool registry, Chain, AuthReloader
    and ChainReloader.

    Python dicts whose iteration order matters ([ToolManager.__tool],
    [ToolManager.__function]) are association lists with the in-place
    overwrite of [d[k] = v]; the dicts used only by key ([AuthReloader.auth],
    [ChainReloader.chain]) are [gmap string _].  Python [int] is [Z]. *)

From Stdlib Require Import ZArith String Ascii Sorted Permutation.
From stdpp Require Import base gmap strings list.

Open Scope Z_scope.

(* ------------------------------------------------------------------ *)
(** ** Python values and exceptions *)

(** [arg: Any] of [Chain]: a few Python values. *)
Inductive PyAny :=
| PyNone
| PyInt (z : Z)
| PyStr (s : string).

(** The exceptions the dict and list primitives used below can raise. *)
Inductive PyExn :=
| KeyError (k : string)
| IndexError.

Inductive res (A : Type) :=
| Ok (a : A)
| Raise (e : PyExn).
Arguments Ok {A} a.
Arguments Raise {A} e.

Definition res_bind {A B} (r : res A) (k : A -> res B) : res B :=
  match r with
  | Ok a => k a
  | Raise e => Raise e
  end.

(** [d[k]]: raises [KeyError] on a missing key. *)
Definition dict_getitem {V} (d : gmap string V) (k : string) : res V :=
  match d !! k with
  | Some v => Ok v
  | None => Raise (KeyError k)
  end.

(** [l.pop()]: removes and returns the last element, [IndexError] on []. *)
Definition list_pop {A} (l : list A) : res (A * list A) :=
  match rev l with
  | [] => Raise IndexError
  | x :: r => Ok (x, rev r)
  end.

(* ------------------------------------------------------------------ *)
(** ** [class Chain(BaseModel)] *)

Record Chain := mkChain {
  user_id : string;
  address : string;
  time : Z;
  arg : PyAny;
  uuid : string
}.

(** The class body is evaluated once, at import: the default of [uuid] is
    the single value [shortuuid.uuid()] returned then, stored in the class. *)
Record ChainClass := { Chain_uuid_default : string }.

(** Loading the module: [uuid: str = shortuuid.uuid()] with [generated] the
    value that call returned. *)
Definition load_Chain_class (generated : string) : ChainClass :=
  {| Chain_uuid_default := generated |}.

(** [Chain(user_id=..., address=..., time=..., arg=..., uuid=...)]; an
    omitted keyword ([None] here) takes the class default. *)
Definition Chain_new (cls : ChainClass) (user_id address : string)
    (time : option Z) (arg : PyAny) (uuid : option string) : Chain :=
  {| user_id := user_id;
     address := address;
     time := default 0 time;
     arg := arg;
     uuid := default (Chain_uuid_default cls) uuid |}.

(* ------------------------------------------------------------------ *)
(** ** [list.sort(key=lambda x: x.time, reverse=True)]

    Python's sort is stable, and with [reverse=True] elements with equal
    keys keep their original order.  Insertion sort that puts each element
    after every element whose key is [>=] its own computes that list. *)

Fixpoint ins_desc (x : Chain) (l : list Chain) : list Chain :=
  match l with
  | [] => [x]
  | y :: r => if time y <? time x then x :: y :: r else y :: ins_desc x r
  end.

Definition sort_time_desc (l : list Chain) : list Chain :=
  fold_left (fun acc x => ins_desc x acc) l [].

(* ------------------------------------------------------------------ *)
(** ** [class AuthReloader]: the class-level dict [auth] *)

(** [self.auth[task.uuid] = task] *)
Definition auth_add_task (auth : gmap string Chain) (task : Chain)
    : gmap string Chain :=
  <[uuid task := task]> auth.

(** [self.auth.pop(uuid, None)]: pop with a default never raises. *)
Definition auth_get_task (auth : gmap string Chain) (uuid : string)
    : res (option Chain * gmap string Chain) :=
  match auth !! uuid with
  | Some c => Ok (Some c, delete uuid auth)
  | None => Ok (None, auth)
  end.

(* ------------------------------------------------------------------ *)
(** ** [class ChainReloader]: the class-level dict [chain] *)

(** [add_task]: create the user's list if absent, append, sort descending. *)
Definition chain_add_task (chain : gmap string (list Chain)) (task : Chain)
    : res (gmap string (list Chain)) :=
  let chain1 :=
    match chain !! user_id task with
    | None => <[user_id task := []]> chain
    | Some _ => chain
    end in
  res_bind (dict_getitem chain1 (user_id task)) (fun l =>
    Ok (<[user_id task := sort_time_desc (l ++ [task])]> chain1)).

(** [get_task]: pop the last element of the user's list, if any. *)
Definition chain_get_task (chain : gmap string (list Chain)) (user_id : string)
    : res (option Chain * gmap string (list Chain)) :=
  match chain !! user_id with
  | Some _ =>
      res_bind (dict_getitem chain user_id) (fun l =>
        if Nat.ltb 0 (length l) then
          res_bind (list_pop l) (fun '(data, l') =>
            Ok (Some data, <[user_id := l']> chain))
        else Ok (None, chain))
  | None => Ok (None, chain)
  end.

(** A sequence of [add_task] calls. *)
Fixpoint chain_add_all (chain : gmap string (list Chain)) (tasks : list Chain)
    : res (gmap string (list Chain)) :=
  match tasks with
  | [] => Ok chain
  | t :: ts => res_bind (chain_add_task chain t) (fun c => chain_add_all c ts)
  end.

(** [n] successive [get_task(user_id)] calls, collecting the results. *)
Fixpoint chain_get_n (chain : gmap string (list Chain)) (user_id : string)
    (n : nat) : res (list (option Chain) * gmap string (list Chain)) :=
  match n with
  | O => Ok ([], chain)
  | S n' =>
      res_bind (chain_get_task chain user_id) (fun '(r, c) =>
        res_bind (chain_get_n c user_id n') (fun '(rs, c') =>
          Ok (r :: rs, c')))
  end.

(* ------------------------------------------------------------------ *)
(** ** Instances and class attributes

    [auth = {}] and [chain = {}] are class attributes.  [self.auth] resolves
    to an attribute of the instance if it has one, else to the class's; the
    item assignment / [pop] then mutates that dict object.  Neither class has
    an [__init__], so [AuthReloader()] creates an instance with no attribute
    of its own. *)

Record World := {
  w_auth : gmap string Chain;                      (** [AuthReloader.auth] *)
  w_chain : gmap string (list Chain);              (** [ChainReloader.chain] *)
  w_auth_own : gmap nat (gmap string Chain);       (** instance [auth] attrs *)
  w_chain_own : gmap nat (gmap string (list Chain)); (** instance [chain] attrs *)
  w_next : nat                                     (** next object id *)
}.

Definition set_auth (w : World) a : World :=
  {| w_auth := a; w_chain := w_chain w; w_auth_own := w_auth_own w;
     w_chain_own := w_chain_own w; w_next := w_next w |}.
Definition set_chain (w : World) c : World :=
  {| w_auth := w_auth w; w_chain := c; w_auth_own := w_auth_own w;
     w_chain_own := w_chain_own w; w_next := w_next w |}.
Definition set_auth_own (w : World) o : World :=
  {| w_auth := w_auth w; w_chain := w_chain w; w_auth_own := o;
     w_chain_own := w_chain_own w; w_next := w_next w |}.
Definition set_chain_own (w : World) o : World :=
  {| w_auth := w_auth w; w_chain := w_chain w; w_auth_own := w_auth_own w;
     w_chain_own := o; w_next := w_next w |}.

(** [AuthReloader()] / [ChainReloader()]: a fresh object id, no own attrs. *)
Definition new_instance (w : World) : nat * World :=
  (w_next w,
   {| w_auth := w_auth w; w_chain := w_chain w; w_auth_own := w_auth_own w;
      w_chain_own := w_chain_own w; w_next := S (w_next w) |}).

Definition AuthReloader_add_task (w : World) (self : nat) (task : Chain) : World :=
  match w_auth_own w !! self with
  | Some own => set_auth_own w (<[self := auth_add_task own task]> (w_auth_own w))
  | None => set_auth w (auth_add_task (w_auth w) task)
  end.

Definition AuthReloader_get_task (w : World) (self : nat) (uuid : string)
    : res (option Chain * World) :=
  match w_auth_own w !! self with
  | Some own =>
      res_bind (auth_get_task own uuid) (fun '(r, own') =>
        Ok (r, set_auth_own w (<[self := own']> (w_auth_own w))))
  | None =>
      res_bind (auth_get_task (w_auth w) uuid) (fun '(r, a') =>
        Ok (r, set_auth w a'))
  end.

Definition ChainReloader_add_task (w : World) (self : nat) (task : Chain)
    : res World :=
  match w_chain_own w !! self with
  | Some own =>
      res_bind (chain_add_task own task) (fun own' =>
        Ok (set_chain_own w (<[self := own']> (w_chain_own w))))
  | None =>
      res_bind (chain_add_task (w_chain w) task) (fun c' => Ok (set_chain w c'))
  end.

Definition ChainReloader_get_task (w : World) (self : nat) (user_id : string)
    : res (option Chain * World) :=
  match w_chain_own w !! self with
  | Some own =>
      res_bind (chain_get_task own user_id) (fun '(r, own') =>
        Ok (r, set_chain_own w (<[self := own']> (w_chain_own w))))
  | None =>
      res_bind (chain_get_task (w_chain w) user_id) (fun '(r, c') =>
        Ok (r, set_chain w c'))
  end.

(** Import time: both class dicts empty, no objects yet. *)
Definition world0 : World :=
  {| w_auth := ∅; w_chain := ∅; w_auth_own := ∅; w_chain_own := ∅; w_next := 0%nat |}.

(* ------------------------------------------------------------------ *)
(** ** Strings: [k in s] and [re.Pattern.match] *)

Fixpoint startswith (k s : string) : bool :=
  match k, s with
  | EmptyString, _ => true
  | String c k', String d s' => Ascii.eqb c d && startswith k' s'
  | String _ _, EmptyString => false
  end.

(** Python's [k in s] for strings: [k] occurs at some position of [s]. *)
Fixpoint py_contains (k s : string) : bool :=
  startswith k s ||
  match s with
  | EmptyString => false
  | String _ s' => py_contains k s'
  end.

(** A compiled pattern, given by where its matches that start at position 0
    of a string can end: [pat_match_at p s k] says the pattern has a match
    spanning [s[0:k]] when run on the whole string [s].  Since it sees all of
    [s], anchors and lookarounds ([$], [\Z], [\b], [(?=...)]) are covered:
    [re.compile('^/w$')] is [fun s k => (s =? "/w") && (k =? 2)]. *)
Record Pattern := { pat_match_at : string -> nat -> bool }.

(** [pattern.match(s)] returns a match object exactly when the pattern has
    a match starting at position 0, ending at some [k <= len(s)]. *)
Definition re_match (p : Pattern) (s : string) : bool :=
  existsb (pat_match_at p s) (seq 0 (S (String.length s))).

(* ------------------------------------------------------------------ *)
(** ** [endpoint.openai.Function] and [class BaseTool] *)

(** Opaque descriptor; pydantic equality compares the fields. *)
Record Function := mkFunction { fname : string; fdescription : string }.

Definition Function_eqb (f g : Function) : bool :=
  String.eqb (fname f) (fname g) && String.eqb (fdescription f) (fdescription g).

(** [Union[bool, str]] returned by [pre_check]. *)
Inductive CheckResult :=
| CheckBool (b : bool)
| CheckStr (reason : string).

(** [BaseTool.func_message]: keywords first, then the optional pattern. *)
Fixpoint keywords_hit (keywords : list string) (message_text : string) : bool :=
  match keywords with
  | [] => false
  | i :: r => if py_contains i message_text then true
              else keywords_hit r message_text
  end.

Definition BaseTool_func_message (keywords : list string)
    (pattern : option Pattern) (function : Function) (message_text : string)
    : option Function :=
  if keywords_hit keywords message_text then Some function
  else match pattern with
       | Some p => if re_match p message_text then Some function else None
       | None => None
       end.

(** A subclass of [BaseTool] (the type, not an instance).  [tool_id] is the
    identity of the class object ([item == tool] on classes).  Every
    instance [tool()] has the class's configuration, so [pre_check] and
    [func_message] of a fresh instance are those of the class. *)
Record ToolType := {
  tool_id : nat;
  silent : bool;
  function : Function;
  keywords : list string;
  pattern : option Pattern;
  require_auth : bool;
  pre_check : CheckResult;
  func_message : string -> option Function
}.

(** A tool whose [func_message] is the inherited default one. *)
Definition default_tool (id : nat) (f : Function) (kws : list string)
    (pat : option Pattern) (check : CheckResult) : ToolType :=
  {| tool_id := id; silent := false; function := f; keywords := kws;
     pattern := pat; require_auth := false; pre_check := check;
     func_message := BaseTool_func_message kws pat f |}.

(* ------------------------------------------------------------------ *)
(** ** [class ToolManager] *)

(** [d[k] = v] on an insertion-ordered dict: an existing key keeps its
    position, a new key goes last. *)
Fixpoint dict_setitem {V} (k : string) (v : V) (d : list (string * V))
    : list (string * V) :=
  match d with
  | [] => [(k, v)]
  | (k', v') :: r =>
      if String.eqb k k' then (k, v) :: r else (k', v') :: dict_setitem k v r
  end.

(** [d.get(k)] *)
Fixpoint dict_get {V} (k : string) (d : list (string * V)) : option V :=
  match d with
  | [] => None
  | (k', v) :: r => if String.eqb k k' then Some v else dict_get k r
  end.

Record ToolManager := {
  tm_tool : list (string * ToolType);      (** [self.__tool] *)
  tm_function : list (string * Function)   (** [self.__function] *)
}.

Definition ToolManager_new : ToolManager := {| tm_tool := []; tm_function := [] |}.

Definition add_tool (tm : ToolManager) (name : string) (function : Function)
    (tool : ToolType) : ToolManager :=
  {| tm_tool := dict_setitem name tool (tm_tool tm);
     tm_function := dict_setitem name function (tm_function tm) |}.

Definition get_tool (tm : ToolManager) (name : string) : option ToolType :=
  dict_get name (tm_tool tm).

Fixpoint find_tool_loop (tool : ToolType) (items : list (string * ToolType))
    : option string :=
  match items with
  | [] => None
  | (name, item) :: r =>
      if Nat.eqb (tool_id item) (tool_id tool) then Some name
      else find_tool_loop tool r
  end.

Definition find_tool (tm : ToolManager) (tool : ToolType) : option string :=
  find_tool_loop tool (tm_tool tm).

Definition get_function (tm : ToolManager) (name : string) : option Function :=
  dict_get name (tm_function tm).

Fixpoint find_function_loop (func : Function) (items : list (string * Function))
    : option string :=
  match items with
  | [] => None
  | (name, function) :: r =>
      if Function_eqb function func then Some name
      else find_function_loop func r
  end.

Definition find_function (tm : ToolManager) (func : Function) : option string :=
  find_function_loop func (tm_function tm).

(** The loop of [run_all_check]: [tool()] is a fresh instance, whose
    [func_message] is the class's; a returned [Function] is truthy. *)
Fixpoint run_all_check_loop (tm : ToolManager) (message_text : string)
    (ignore : list string) (items : list (string * ToolType))
    : list (option Function) :=
  match items with
  | [] => []
  | (name, tool) :: r =>
      match func_message tool message_text with
      | Some _ =>
          if existsb (String.eqb name) ignore
          then run_all_check_loop tm message_text ignore r
          else get_function tm name :: run_all_check_loop tm message_text ignore r
      | None => run_all_check_loop tm message_text ignore r
      end
  end.

Definition run_all_check (tm : ToolManager) (message_text : string)
    (ignore : option (list string)) : list (option Function) :=
  run_all_check_loop tm message_text (default [] ignore) (tm_tool tm).

(** The methods of [ToolManager] as operations on its state.  Only
    [add_tool] writes; the others read ([get_all_tool] / [get_all_function]
    hand the dicts out; writes a caller makes through them are not
    [ToolManager] operations). *)
Inductive TMOp :=
| OpAddTool (name : string) (function : Function) (tool : ToolType)
| OpGetTool (name : string)
| OpFindTool (tool : ToolType)
| OpGetFunction (name : string)
| OpFindFunction (func : Function)
| OpGetAllTool
| OpGetAllFunction
| OpRunAllCheck (message_text : string) (ignore : option (list string)).

Definition tm_step (tm : ToolManager) (op : TMOp) : ToolManager :=
  match op with
  | OpAddTool name function tool => add_tool tm name function tool
  | _ => tm
  end.

Definition tm_run (ops : list TMOp) : ToolManager :=
  fold_left tm_step ops ToolManager_new.

(** [listener(function)(func)]: the [isinstance] / [issubclass] checks are
    discharged by the types here.  [func().pre_check()] is compared with
    [is True]; only then is the tool added under [function.name]. *)
Definition listener (function : Function) (func : ToolType) (tm : ToolManager)
    : ToolManager :=
  match pre_check func with
  | CheckBool true => add_tool tm (fname function) function func
  | _ => tm
  end.

(** Module load: the decorated classes, in order, against [TOOL_MANAGER]. *)
Definition listen_all (regs : list (Function * ToolType)) : ToolManager :=
  fold_left (fun tm '(f, t) => listener f t tm) regs ToolManager_new.

Definition accepted (r : Function * ToolType) : bool :=
  match pre_check (snd r) with
  | CheckBool true => true
  | _ => false
  end.

(* ------------------------------------------------------------------ *)
(** ** Specification-side definitions *)

(** Registrations performed by a sequence of [ToolManager] operations. *)
Fixpoint regs_of (ops : list TMOp) : list (string * Function * ToolType) :=
  match ops with
  | [] => []
  | OpAddTool n f t :: r => (n, f, t) :: regs_of r
  | _ :: r => regs_of r
  end.

(** Registered names, in the order of their first registration. *)
Definition reg_names (regs : list (string * Function * ToolType)) : list string :=
  fold_left (fun acc '(n, _, _) =>
    if existsb (String.eqb n) acc then acc else acc ++ [n]) regs [].

(** The last registration made under a name. *)
Definition reg_latest (regs : list (string * Function * ToolType)) (n : string)
    : option (Function * ToolType) :=
  fold_left (fun acc '(m, f, t) =>
    if String.eqb m n then Some (f, t) else acc) regs None.

(** The descriptors of the registered tools whose fresh instance matches
    [text] and whose name is not ignored, in registration order. *)
Definition spec_run_all_check (regs : list (string * Function * ToolType))
    (text : string) (ignore : list string) : list Function :=
  flat_map (fun n =>
    match reg_latest regs n with
    | Some (f, t) =>
        if bool_decide (is_Some (func_message t text)) &&
           negb (existsb (String.eqb n) ignore)
        then [f] else []
    | None => []
    end) (reg_names regs).

(** [c] is a minimum-time chain of [cs] and no chain queued after it has
    the same time: the most recently enqueued of the minimum-time chains. *)
Definition last_min_time (c : Chain) (cs : list Chain) : Prop :=
  exists pre post, cs = pre ++ c :: post /\
    Forall (fun y => time c <= time y) pre /\
    Forall (fun y => time c < time y) post.

(* ------------------------------------------------------------------ *)
(** ** Lemmas on the Python dict model *)

Lemma dict_get_notin {V} (k : string) (d : list (string * V)) :
  ~ In k (map fst d) -> dict_get k d = None.
Proof.
  induction d as [|[k' v] r IH]; simpl; intros Hn; [done|].
  destruct (String.eqb_spec k k'); [subst; tauto|].
  apply IH. tauto.
Qed.

Lemma dict_setitem_get_eq {V} (k : string) (v : V) d :
  dict_get k (dict_setitem k v d) = Some v.
Proof.
  induction d as [|[k' v'] r IH]; simpl.
  - by rewrite String.eqb_refl.
  - destruct (String.eqb_spec k k'); simpl.
    + by rewrite String.eqb_refl.
    + destruct (String.eqb_spec k k'); [contradiction|done].
Qed.

Lemma dict_setitem_get_ne {V} (k j : string) (v : V) d :
  j <> k -> dict_get j (dict_setitem k v d) = dict_get j d.
Proof.
  intros Hne. induction d as [|[k' v'] r IH]; simpl.
  - destruct (String.eqb_spec j k); [contradiction|done].
  - destruct (String.eqb_spec k k'); simpl.
    + subst. destruct (String.eqb_spec j k'); [contradiction|done].
    + by rewrite IH.
Qed.

Lemma dict_setitem_keys {V W} (k : string) (v : V) (w : W) d e :
  map fst d = map fst e ->
  map fst (dict_setitem k v d) = map fst (dict_setitem k w e).
Proof.
  revert e. induction d as [|[k' v'] r IH]; intros [|[k'' w'] e] He;
    simpl in *; try discriminate; [done|].
  injection He as -> He.
  destruct (String.eqb k k''); simpl; [by rewrite He|].
  f_equal. by apply IH.
Qed.

Lemma dict_setitem_keys_app {V} (k : string) (v : V) d :
  map fst (dict_setitem k v d) =
  if existsb (String.eqb k) (map fst d) then map fst d else map fst d ++ [k].
Proof.
  induction d as [|[k' v'] r IH]; simpl; [done|].
  destruct (String.eqb_spec k k'); simpl; [by subst|].
  rewrite IH. by destruct (existsb (String.eqb k) (map fst r)).
Qed.

(* ------------------------------------------------------------------ *)
(** ** C1: the default uuid of Chain *)

(** C1 (code_bug): the default [uuid] is computed once, when the class is
    created, so any two chains built without a [uuid] argument carry the
    same uuid. *)
Theorem Chain_default_uuid_shared (generated : string)
    (u1 a1 u2 a2 : string) (t1 t2 : option Z) (x1 x2 : PyAny) :
  uuid (Chain_new (load_Chain_class generated) u1 a1 t1 x1 None) =
  uuid (Chain_new (load_Chain_class generated) u2 a2 t2 x2 None).
Proof. reflexivity. Qed.

(* ------------------------------------------------------------------ *)
(** ** C3: AuthReloader consumes a task exactly once *)

(** C3: after [add_task(c)], [get_task(c.uuid)] returns [c] itself (all
    fields equal) and an immediately following [get_task(c.uuid)] returns
    [None]. *)
Theorem AuthReloader_get_task_once (auth : gmap string Chain) (c : Chain) :
  exists auth',
    auth_get_task (auth_add_task auth c) (uuid c) = Ok (Some c, auth') /\
    auth_get_task auth' (uuid c) = Ok (None, auth').
Proof.
  exists (delete (uuid c) (auth_add_task auth c)).
  unfold auth_get_task, auth_add_task.
  rewrite lookup_insert_eq, lookup_delete_eq. done.
Qed.

(* ------------------------------------------------------------------ *)
(** ** C7: a lookup that finds nothing returns None *)

(** C7: [ChainReloader.get_task] on a user with no list or an empty list,
    [AuthReloader.get_task] on an unknown uuid and [get_tool],
    [get_function], [find_tool], [find_function] on unknown keys all return
    [None] (no exception is raised). *)
Theorem lookup_miss_returns_None (chain : gmap string (list Chain)) (u : string)
    (auth : gmap string Chain) (k : string) (tm : ToolManager) (n : string)
    (T : ToolType) (F : Function) :
  (chain !! u = None \/ chain !! u = Some []) ->
  auth !! k = None ->
  ~ In n (map fst (tm_tool tm)) ->
  ~ In n (map fst (tm_function tm)) ->
  Forall (fun it => tool_id (snd it) <> tool_id T) (tm_tool tm) ->
  Forall (fun it => Function_eqb (snd it) F = false) (tm_function tm) ->
  chain_get_task chain u = Ok (None, chain) /\
  auth_get_task auth k = Ok (None, auth) /\
  get_tool tm n = None /\ get_function tm n = None /\
  find_tool tm T = None /\ find_function tm F = None.
Proof.
  intros Hc Ha Ht Hf HT HF. split; [|split; [|split; [|split; [|split]]]].
  - unfold chain_get_task, dict_getitem.
    destruct Hc as [-> | ->]; done.
  - unfold auth_get_task. by rewrite Ha.
  - by apply dict_get_notin.
  - by apply dict_get_notin.
  - unfold find_tool. clear Ht HF. revert HT.
    induction (tm_tool tm) as [|[nm it] r IH]; intros HT; [done|].
    inversion HT as [|? ? Hx Hr]; subst. simpl in Hx |- *.
    destruct (Nat.eqb_spec (tool_id it) (tool_id T)); [contradiction|].
    by apply IH.
  - unfold find_function. clear Hf HT. revert HF.
    induction (tm_function tm) as [|[nm it] r IH]; intros HF; [done|].
    inversion HF as [|? ? Hx Hr]; subst. simpl in Hx |- *.
    rewrite Hx. by apply IH.
Qed.

(* ------------------------------------------------------------------ *)
(** ** C8: the two registry mappings have the same keys *)

(** C8: from a fresh [ToolManager], any sequence of its operations leaves
    [__tool] and [__function] with the same keys (in the same order), and
    [add_tool] always writes the name into both, overwriting. *)
Theorem ToolManager_keys_agree (ops : list TMOp) :
  map fst (tm_tool (tm_run ops)) = map fst (tm_function (tm_run ops)) /\
  forall name f t,
    get_tool (tm_step (tm_run ops) (OpAddTool name f t)) name = Some t /\
    get_function (tm_step (tm_run ops) (OpAddTool name f t)) name = Some f.
Proof.
  split.
  - unfold tm_run.
    cut (forall tm, map fst (tm_tool tm) = map fst (tm_function tm) ->
           map fst (tm_tool (fold_left tm_step ops tm)) =
           map fst (tm_function (fold_left tm_step ops tm))).
    { intros H. by apply H. }
    induction ops as [|op r IH]; intros tm Htm; simpl; [done|].
    apply IH. destruct op; simpl; try done.
    by apply dict_setitem_keys.
  - intros name f t. simpl. unfold get_tool, get_function. simpl.
    by rewrite !dict_setitem_get_eq.
Qed.

(* ------------------------------------------------------------------ *)
(** ** Lemmas on the descending stable sort *)

(** [l] is ordered by non-increasing [time]. *)
Definition time_ge (a b : Chain) : Prop := time b <= time a.

Lemma Forall_perm {A} (P : A -> Prop) (l l' : list A) :
  Permutation l l' -> Forall P l -> Forall P l'.
Proof.
  intros Hp H. apply List.Forall_forall. intros x Hx.
  eapply List.Forall_forall; [exact H|].
  eapply Permutation_in; [symmetry; exact Hp|exact Hx].
Qed.

Lemma ins_desc_perm x l : Permutation (ins_desc x l) (x :: l).
Proof.
  induction l as [|y r IH]; simpl; [done|].
  destruct (time y <? time x); [done|].
  rewrite IH. apply perm_swap.
Qed.

Lemma ins_desc_sorted x l :
  StronglySorted time_ge l -> StronglySorted time_ge (ins_desc x l).
Proof.
  induction l as [|y r IH]; simpl; intros Hs.
  - repeat constructor.
  - inversion Hs as [|? ? Hr Hy]; subst.
    destruct (Z.ltb_spec (time y) (time x)).
    + constructor; [done|]. constructor; [unfold time_ge; lia|].
      eapply List.Forall_impl; [|exact Hy]. unfold time_ge. intros a Ha. lia.
    + constructor; [by apply IH|].
      eapply Forall_perm; [symmetry; apply ins_desc_perm|].
      constructor; [unfold time_ge; lia|exact Hy].
Qed.

Lemma ins_desc_end x l :
  Forall (fun y => time x <= time y) l -> ins_desc x l = l ++ [x].
Proof.
  induction l as [|y r IH]; simpl; intros H; [done|].
  inversion H; subst.
  destruct (Z.ltb_spec (time y) (time x)); [lia|]. by rewrite IH.
Qed.

Lemma ins_desc_last_same x l y :
  In y l -> time y < time x -> last (ins_desc x l) = last l.
Proof.
  induction l as [|z r IH]; simpl; intros Hin Hlt; [done|].
  destruct (Z.ltb_spec (time z) (time x)); [by rewrite last_cons_cons|].
  destruct Hin as [->|Hin]; [lia|].
  destruct r as [|w r']; [done|].
  rewrite (last_cons_cons z w r'), <- (IH Hin Hlt).
  destruct (ins_desc x (w :: r')) as [|v r''] eqn:E.
  - simpl in E. destruct (time w <? time x); discriminate.
  - rewrite last_cons_cons. done.
Qed.

Lemma StronglySorted_app {A} (R : A -> A -> Prop) l1 l2 :
  StronglySorted R l1 -> StronglySorted R l2 ->
  (forall x y, In x l1 -> In y l2 -> R x y) ->
  StronglySorted R (l1 ++ l2).
Proof.
  induction l1 as [|a r IH]; simpl; intros H1 H2 H12; [done|].
  inversion H1 as [|? ? Hr Ha]; subst.
  constructor.
  - apply IH; auto.
  - apply List.Forall_forall. intros y Hy. apply in_app_or in Hy as [Hy|Hy].
    + eapply List.Forall_forall; [exact Ha|exact Hy].
    + apply H12; auto.
Qed.

Lemma StronglySorted_app_inv {A} (R : A -> A -> Prop) l1 l2 :
  StronglySorted R (l1 ++ l2) ->
  StronglySorted R l2 /\ forall x y, In x l1 -> In y l2 -> R x y.
Proof.
  induction l1 as [|a r IH]; simpl; intros H.
  - split; [done|tauto].
  - inversion H as [|? ? Hr Ha]; subst.
    destruct (IH Hr) as [H2 H12]. split; [done|].
    intros x y [->|Hx] Hy.
    + eapply List.Forall_forall; [exact Ha|]. apply in_or_app. by right.
    + by apply H12.
Qed.

Lemma StronglySorted_rev {A} (R : A -> A -> Prop) l :
  StronglySorted R l -> StronglySorted (fun a b => R b a) (rev l).
Proof.
  induction l as [|a r IH]; simpl; intros H; [constructor|].
  inversion H as [|? ? Hr Ha]; subst.
  apply StronglySorted_app; [by apply IH|repeat constructor|].
  intros x y Hx [<-|[]]. apply in_rev in Hx.
  eapply List.Forall_forall; [exact Ha|exact Hx].
Qed.

Lemma fold_ins_perm cs acc :
  Permutation (fold_left (fun acc x => ins_desc x acc) cs acc) (acc ++ cs).
Proof.
  revert acc. induction cs as [|x r IH]; intros acc; simpl.
  - by rewrite app_nil_r.
  - rewrite IH, ins_desc_perm. apply Permutation_middle.
Qed.

Lemma fold_ins_sorted cs acc :
  StronglySorted time_ge acc ->
  StronglySorted time_ge (fold_left (fun acc x => ins_desc x acc) cs acc).
Proof.
  revert acc. induction cs as [|x r IH]; intros acc H; simpl; [done|].
  apply IH. by apply ins_desc_sorted.
Qed.

Lemma fold_ins_sorted_id rest acc :
  StronglySorted time_ge (acc ++ rest) ->
  fold_left (fun acc x => ins_desc x acc) rest acc = acc ++ rest.
Proof.
  revert acc. induction rest as [|x r IH]; intros acc H; simpl.
  - by rewrite app_nil_r.
  - assert (Hx : ins_desc x acc = acc ++ [x]).
    { apply ins_desc_end. apply List.Forall_forall. intros y Hy.
      apply StronglySorted_app_inv in H as [_ H].
      apply (H y x Hy). simpl. by left. }
    rewrite Hx, IH; [by rewrite <- app_assoc|].
    by rewrite <- app_assoc.
Qed.

Lemma sort_time_desc_sorted_id l :
  StronglySorted time_ge l -> sort_time_desc l = l.
Proof. intros H. apply (fold_ins_sorted_id l []). done. Qed.

Lemma sort_time_desc_snoc l x :
  sort_time_desc (l ++ [x]) = ins_desc x (sort_time_desc l).
Proof. unfold sort_time_desc. by rewrite fold_left_app. Qed.

(* ------------------------------------------------------------------ *)
(** ** Lemmas on [ChainReloader] *)

Lemma chain_add_task_ok (chain : gmap string (list Chain)) (t : Chain) :
  chain_add_task chain t =
  Ok (<[user_id t := sort_time_desc (default [] (chain !! user_id t) ++ [t])]> chain).
Proof.
  unfold chain_add_task, dict_getitem.
  destruct (chain !! user_id t) as [l|] eqn:E; simpl.
  - by rewrite E.
  - rewrite lookup_insert_eq. simpl. by rewrite insert_insert_eq.
Qed.

Lemma chain_add_all_ok (chain : gmap string (list Chain)) (u : string)
    (cs : list Chain) :
  StronglySorted time_ge (default [] (chain !! u)) ->
  Forall (fun c => user_id c = u) cs ->
  exists chain', chain_add_all chain cs = Ok chain' /\
    default [] (chain' !! u) =
    fold_left (fun acc x => ins_desc x acc) cs (default [] (chain !! u)).
Proof.
  revert chain. induction cs as [|t r IH]; intros chain Hs Hu; simpl.
  - by exists chain.
  - inversion Hu as [|? ? Ht Hr]; subst.
    rewrite chain_add_task_ok. simpl.
    rewrite sort_time_desc_snoc, sort_time_desc_sorted_id by done.
    destruct (IH (<[user_id t := ins_desc t (default [] (chain !! user_id t))]> chain))
      as [chain' [Hadd Hl]]; [|done|].
    + rewrite lookup_insert_eq. simpl. by apply ins_desc_sorted.
    + exists chain'. split; [done|]. rewrite Hl, lookup_insert_eq. done.
Qed.

Lemma chain_get_task_empty (chain : gmap string (list Chain)) (u : string) :
  default [] (chain !! u) = [] -> chain_get_task chain u = Ok (None, chain).
Proof.
  unfold chain_get_task, dict_getitem. destruct (chain !! u); simpl; intros H.
  - by subst.
  - done.
Qed.

Lemma chain_get_task_snoc (chain : gmap string (list Chain)) (u : string) l x :
  chain !! u = Some (l ++ [x]) ->
  chain_get_task chain u = Ok (Some x, <[u := l]> chain).
Proof.
  intros H. unfold chain_get_task, dict_getitem. rewrite H. simpl.
  rewrite length_app. simpl.
  replace (Nat.ltb 0 (length l + 1)) with true
    by (symmetry; apply Nat.ltb_lt; lia).
  unfold list_pop. rewrite rev_unit. simpl. by rewrite rev_involutive.
Qed.

Lemma chain_get_n_drain (chain : gmap string (list Chain)) (u : string) l :
  default [] (chain !! u) = l ->
  exists chain', chain_get_n chain u (length l) = Ok (map Some (rev l), chain') /\
    default [] (chain' !! u) = [].
Proof.
  revert chain. induction l as [|x l IH] using rev_ind; intros chain H.
  - by exists chain.
  - assert (Hc : chain !! u = Some (l ++ [x])).
    { destruct (chain !! u); simpl in H; [by subst|].
      by apply app_cons_not_nil in H. }
    rewrite length_app, Nat.add_comm. simpl.
    rewrite (chain_get_task_snoc _ _ _ _ Hc). simpl.
    destruct (IH (<[u := l]> chain)) as [chain' [Hn Hl]].
    { by rewrite lookup_insert_eq. }
    rewrite Hn. simpl. exists chain'. split; [|done].
    by rewrite rev_unit.
Qed.

Lemma forallb_false_exists {A} (f : A -> bool) l :
  forallb f l = false -> exists y, In y l /\ f y = false.
Proof.
  induction l as [|a r IH]; simpl; [done|].
  destruct (f a) eqn:E; simpl; intros H.
  - destruct (IH H) as [y [Hy Hf]]. eauto.
  - eauto.
Qed.

Lemma sort_last_min_time cs :
  cs <> [] -> exists c, last (sort_time_desc cs) = Some c /\ last_min_time c cs.
Proof.
  induction cs as [|x cs IH] using rev_ind; [done|]. intros _.
  rewrite sort_time_desc_snoc.
  destruct (forallb (fun y => time x <=? time y) (sort_time_desc cs)) eqn:E.
  - exists x. rewrite ins_desc_end, last_snoc.
    2:{ apply List.Forall_forall. intros y Hy.
        eapply List.forallb_forall in E; [|exact Hy]. by apply Z.leb_le. }
    split; [done|]. exists cs, []. split; [done|]. split; [|constructor].
    eapply Forall_perm; [apply (fold_ins_perm cs [])|].
    apply List.Forall_forall. intros y Hy.
    eapply List.forallb_forall in E; [|exact Hy]. by apply Z.leb_le.
  - apply forallb_false_exists in E as [y [Hy Hlt]]. apply Z.leb_gt in Hlt.
    destruct cs as [|c0 cs0] eqn:Ecs; [done|]. rewrite <- Ecs in *.
    destruct IH as [c [Hc [pre [post [Heq [Hpre Hpost]]]]]]; [by subst|].
    exists c. rewrite (ins_desc_last_same _ _ y Hy Hlt). split; [done|].
    exists pre, (post ++ [x]). split; [by rewrite Heq, <- app_assoc|].
    split; [done|]. apply Forall_app. split; [done|]. constructor; [|done].
    assert (Hy' : In y cs).
    { eapply Permutation_in; [apply (fold_ins_perm cs [])|exact Hy]. }
    rewrite Heq in Hy'. apply in_app_or in Hy' as [Hy'|[<-|Hy']].
    + eapply List.Forall_forall in Hpre; [|exact Hy']. lia.
    + lia.
    + eapply List.Forall_forall in Hpost; [|exact Hy']. lia.
Qed.

(* ------------------------------------------------------------------ *)
(** ** C2: ChainReloader dequeues in ascending time *)

(** C2: after a sequence of [add_task] calls for user [u], repeated
    [get_task(u)] calls return every queued chain (those already queued and
    the new ones) in ascending order of [time], then [None]. *)
Theorem ChainReloader_dequeue_ascending (chain : gmap string (list Chain))
    (u : string) (cs : list Chain) :
  StronglySorted time_ge (default [] (chain !! u)) ->
  Forall (fun c => user_id c = u) cs ->
  exists chain' out chain'',
    chain_add_all chain cs = Ok chain' /\
    chain_get_n chain' u (length (default [] (chain !! u)) + length cs)
      = Ok (map Some out, chain'') /\
    StronglySorted (fun a b => time a <= time b) out /\
    Permutation out (default [] (chain !! u) ++ cs) /\
    chain_get_task chain'' u = Ok (None, chain'').
Proof.
  intros Hs Hu.
  destruct (chain_add_all_ok chain u cs Hs Hu) as [chain' [Hadd Hl]].
  set (L := fold_left (fun acc x => ins_desc x acc) cs (default [] (chain !! u)))
    in Hl.
  destruct (chain_get_n_drain chain' u L Hl) as [chain'' [Hn Hempty]].
  assert (HL : length L = (length (default [] (chain !! u)) + length cs)%nat).
  { unfold L. rewrite (Permutation_length (fold_ins_perm _ _)). apply length_app. }
  exists chain', (rev L), chain''.
  split; [done|]. split; [by rewrite <- HL|].
  split; [|split].
  - apply (StronglySorted_rev time_ge). by apply fold_ins_sorted.
  - rewrite <- Permutation_rev. apply fold_ins_perm.
  - by apply chain_get_task_empty.
Qed.

(* ------------------------------------------------------------------ *)
(** ** C10: ties on the minimum time are served last-in first-out *)

(** C10: with chains [cs] enqueued for a user with an empty queue,
    [get_task] returns a minimum-time chain, and among the chains with that
    time the most recently enqueued one. *)
Theorem ChainReloader_ties_lifo (chain : gmap string (list Chain))
    (u : string) (cs : list Chain) :
  default [] (chain !! u) = [] ->
  Forall (fun c => user_id c = u) cs ->
  cs <> [] ->
  exists chain' c chain'',
    chain_add_all chain cs = Ok chain' /\
    chain_get_task chain' u = Ok (Some c, chain'') /\
    last_min_time c cs.
Proof.
  intros He Hu Hne.
  destruct (chain_add_all_ok chain u cs) as [chain' [Hadd Hl]];
    [rewrite He; constructor|done|].
  rewrite He in Hl. fold (sort_time_desc cs) in Hl.
  destruct (sort_last_min_time cs Hne) as [c [Hlast Hmin]].
  apply last_Some in Hlast as [l' Hl'].
  rewrite Hl' in Hl.
  assert (Hc : chain' !! u = Some (l' ++ [c])).
  { destruct (chain' !! u); simpl in Hl; [by subst|].
    by apply app_cons_not_nil in Hl. }
  exists chain', c, (<[u := l']> chain').
  split; [done|]. split; [|done].
  by apply chain_get_task_snoc.
Qed.

(* ------------------------------------------------------------------ *)
(** ** Lemmas on strings *)

Lemma startswith_spec (k s : string) :
  startswith k s = true <-> exists b, s = String.append k b.
Proof.
  revert s. induction k as [|c k IH]; intros s; simpl.
  - split; [eauto|done].
  - destruct s as [|d s]; simpl.
    + split; [done|]. intros [b Hb]. discriminate.
    + rewrite andb_true_iff, IH.
      destruct (Ascii.eqb_spec c d) as [->|Hne]; split.
      * intros [_ [b ->]]. eauto.
      * intros [b Hb]. injection Hb as Hb. split; [done|eauto].
      * intros [Hf _]. discriminate.
      * intros [b Hb]. injection Hb as -> _. contradiction.
Qed.

Lemma py_contains_spec (k s : string) :
  py_contains k s = true <->
  exists a b, s = String.append a (String.append k b).
Proof.
  induction s as [|c s IH]; simpl; rewrite orb_true_iff, startswith_spec.
  - split.
    + intros [[b Hb]|Hf]; [|discriminate]. exists EmptyString, b. done.
    + intros [[|x a] [b Hb]]; [left; eauto|discriminate].
  - rewrite IH. split.
    + intros [[b Hb]|[a [b Hb]]].
      * exists EmptyString, b. done.
      * exists (String c a), b. simpl. by rewrite Hb.
    + intros [[|x a] [b Hb]]; simpl in Hb.
      * left. eauto.
      * right. injection Hb as -> Hb. eauto.
Qed.

Lemma keywords_hit_spec (keywords : list string) (s : string) :
  keywords_hit keywords s = true <->
  exists k, In k keywords /\ py_contains k s = true.
Proof.
  induction keywords as [|i r IH]; simpl.
  - split; [done|]. intros [k [[] _]].
  - destruct (py_contains i s) eqn:E.
    + split; [|done]. intros _. eauto.
    + rewrite IH. split.
      * intros [k [Hk Hc]]. eauto.
      * intros [k [[<-|Hk] Hc]]; [congruence|eauto].
Qed.

(** Some configured keyword occurs in [s] ([k in s]). *)
Definition keyword_occurs (keywords : list string) (s : string) : Prop :=
  exists k, In k keywords /\ exists a b, s = String.append a (String.append k b).

(** A pattern is configured and has a match starting at position 0 of [s]. *)
Definition pattern_matches_start (pattern : option Pattern) (s : string) : Prop :=
  exists p, pattern = Some p /\
    exists k, (k <= String.length s)%nat /\ pat_match_at p s k = true.

Lemma keywords_hit_iff (keywords : list string) (s : string) :
  keywords_hit keywords s = true <-> keyword_occurs keywords s.
Proof.
  rewrite keywords_hit_spec. unfold keyword_occurs.
  split; intros [k [Hk Hc]]; exists k; split; try done; by apply py_contains_spec.
Qed.

Lemma re_match_iff (p : Pattern) (s : string) :
  re_match p s = true <->
  exists k, (k <= String.length s)%nat /\ pat_match_at p s k = true.
Proof.
  unfold re_match. rewrite existsb_exists. split.
  - intros [k [Hin Hm]]. apply in_seq in Hin. exists k. split; [lia|done].
  - intros [k [Hk Hm]]. exists k. split; [|done]. apply in_seq. lia.
Qed.

Lemma pattern_matches_start_Some (p : Pattern) (s : string) :
  pattern_matches_start (Some p) s <-> re_match p s = true.
Proof.
  rewrite re_match_iff. unfold pattern_matches_start. split.
  - intros [q [Hq H]]. by injection Hq as <-.
  - intros H. eauto.
Qed.

Lemma pattern_matches_start_None (s : string) :
  pattern_matches_start None s <-> False.
Proof. unfold pattern_matches_start. split; [intros [q [Hq _]]; discriminate|done]. Qed.

(* ------------------------------------------------------------------ *)
(** ** C5: the default [func_message] *)

(** C5: for a tool with the default [func_message], a fresh instance returns
    the tool's descriptor exactly when a keyword occurs in the text, or, no
    keyword occurring, the configured pattern matches at the start of the
    text; otherwise it returns [None]. *)
Theorem BaseTool_func_message_matches (id : nat) (f : Function)
    (kws : list string) (pat : option Pattern) (check : CheckResult)
    (message_text : string) :
  (func_message (default_tool id f kws pat check) message_text = Some f <->
     keyword_occurs kws message_text \/
     (~ keyword_occurs kws message_text /\ pattern_matches_start pat message_text)) /\
  (func_message (default_tool id f kws pat check) message_text = None <->
     ~ keyword_occurs kws message_text /\ ~ pattern_matches_start pat message_text).
Proof.
  simpl. unfold BaseTool_func_message.
  rewrite <- keywords_hit_iff.
  destruct (keywords_hit kws message_text) eqn:E.
  - split; split; try done; intuition congruence.
  - assert (Hnk : ~ keywords_hit kws message_text = true) by congruence.
    destruct pat as [p|].
    + rewrite pattern_matches_start_Some. destruct (re_match p message_text).
      * split; split; try done; intuition congruence.
      * split; split; try done; intuition congruence.
    + rewrite pattern_matches_start_None. split; split; try done; intuition congruence.
Qed.

(* ------------------------------------------------------------------ *)
(** ** C4: the registration gate *)

Lemma dict_setitem_Forall {V} (P : V -> Prop) (k : string) (v : V) d :
  Forall (fun it => P (snd it)) d -> P v ->
  Forall (fun it => P (snd it)) (dict_setitem k v d).
Proof.
  induction d as [|[k' v'] r IH]; simpl; intros Hd Hv.
  - by constructor.
  - inversion Hd; subst. destruct (String.eqb k k'); constructor; auto.
Qed.

Lemma listener_rejected (f : Function) (t : ToolType) (tm : ToolManager) :
  pre_check t <> CheckBool true -> listener f t tm = tm.
Proof. unfold listener. destruct (pre_check t) as [[|]|s]; congruence. Qed.

Lemma listen_from_filter (regs : list (Function * ToolType)) (tm : ToolManager) :
  fold_left (fun tm '(f, t) => listener f t tm) regs tm =
  fold_left (fun tm '(f, t) => listener f t tm) (List.filter accepted regs) tm.
Proof.
  revert tm. induction regs as [|[f t] r IH]; intros tm; [done|].
  simpl. unfold accepted at 1. simpl.
  destruct (pre_check t) as [[|]|s] eqn:E; simpl; [apply IH| |];
    rewrite (listener_rejected f t tm) by (rewrite E; discriminate); apply IH.
Qed.

Lemma listen_all_checked (regs : list (Function * ToolType)) (tm : ToolManager) :
  Forall (fun it => pre_check (snd it) = CheckBool true) (tm_tool tm) ->
  Forall (fun it => pre_check (snd it) = CheckBool true)
    (tm_tool (fold_left (fun tm '(f, t) => listener f t tm) regs tm)).
Proof.
  revert tm. induction regs as [|[f t] r IH]; intros tm H; simpl; [done|].
  apply IH. unfold listener.
  destruct (pre_check t) as [[|]|s] eqn:E; try done.
  simpl. by apply (dict_setitem_Forall (fun t => pre_check t = CheckBool true)).
Qed.

(** C4: a tool class whose [pre_check()] is not [True] is never put into the
    registry by [listener]: the registry is the one built from the accepted
    classes alone, so [run_all_check] never instantiates or reports it. *)
Theorem listener_rejected_never_registered
    (regs : list (Function * ToolType)) (T : ToolType) :
  pre_check T <> CheckBool true ->
  ~ In T (map snd (tm_tool (listen_all regs))) /\
  listen_all regs = listen_all (List.filter accepted regs) /\
  (forall text ignore,
     run_all_check (listen_all regs) text ignore =
     run_all_check (listen_all (List.filter accepted regs)) text ignore).
Proof.
  intros HT. unfold listen_all. rewrite <- listen_from_filter.
  split; [|done].
  intros Hin. apply in_map_iff in Hin as [[n t] [<- Hin]].
  pose proof (listen_all_checked regs ToolManager_new (List.Forall_nil _)) as Hall.
  eapply List.Forall_forall in Hall; [|exact Hin]. simpl in *. congruence.
Qed.

(* ------------------------------------------------------------------ *)
(** ** Lemmas on [run_all_check] *)

Definition add_reg (tm : ToolManager) (r : string * Function * ToolType)
    : ToolManager :=
  let '(n, f, t) := r in add_tool tm n f t.

Lemma tm_run_regs_from (ops : list TMOp) (tm : ToolManager) :
  fold_left tm_step ops tm = fold_left add_reg (regs_of ops) tm.
Proof.
  revert tm. induction ops as [|op r IH]; intros tm; [done|].
  destruct op; simpl; apply IH.
Qed.

Lemma tm_of_regs_keys regs :
  map fst (tm_tool (fold_left add_reg regs ToolManager_new)) = reg_names regs.
Proof.
  induction regs as [|[[n f] t] regs IH] using rev_ind; [done|].
  unfold reg_names. rewrite !fold_left_app. simpl.
  rewrite dict_setitem_keys_app, IH. done.
Qed.

Lemma tm_of_regs_get regs (n : string) :
  get_tool (fold_left add_reg regs ToolManager_new) n =
    option_map snd (reg_latest regs n) /\
  get_function (fold_left add_reg regs ToolManager_new) n =
    option_map fst (reg_latest regs n).
Proof.
  induction regs as [|[[m f] t] regs IH] using rev_ind; [done|].
  unfold reg_latest, get_tool, get_function in *.
  rewrite !fold_left_app. simpl.
  destruct (String.eqb_spec m n) as [->|Hne].
  - by rewrite !dict_setitem_get_eq.
  - rewrite !dict_setitem_get_ne by congruence. done.
Qed.

Lemma in_keys_setitem {V} (k x : string) (v : V) d :
  In x (map fst (dict_setitem k v d)) -> x = k \/ In x (map fst d).
Proof.
  induction d as [|[k' v'] r IH]; simpl.
  - intros [->|[]]. by left.
  - destruct (String.eqb_spec k k') as [->|Hne]; simpl; [tauto|].
    intros [->|H]; [tauto|]. destruct (IH H); tauto.
Qed.

Lemma NoDup_keys_setitem {V} (k : string) (v : V) d :
  List.NoDup (map fst d) -> List.NoDup (map fst (dict_setitem k v d)).
Proof.
  induction d as [|[k' v'] r IH]; simpl; intros H.
  - constructor; [intros []|constructor].
  - inversion H as [|? ? Hn Hr]; subst.
    destruct (String.eqb_spec k k') as [->|Hne]; simpl; [done|].
    constructor; [|by apply IH].
    intros Hin. apply in_keys_setitem in Hin as [->|Hin]; [done|contradiction].
Qed.

Lemma tm_of_regs_NoDup regs :
  List.NoDup (map fst (tm_tool (fold_left add_reg regs ToolManager_new))).
Proof.
  induction regs as [|[[n f] t] regs IH] using rev_ind; [constructor|].
  rewrite fold_left_app. simpl. by apply NoDup_keys_setitem.
Qed.

(** One step of the [run_all_check] loop, read through [d.get(name)]. *)
Definition check_entry (tm : ToolManager) (text : string) (ignore : list string)
    (d : list (string * ToolType)) (name : string) : list (option Function) :=
  match dict_get name d with
  | Some tool =>
      match func_message tool text with
      | Some _ => if existsb (String.eqb name) ignore then []
                  else [get_function tm name]
      | None => []
      end
  | None => []
  end.

Lemma check_entry_cons tm text ignore k t r (ns : list string) :
  ~ In k ns ->
  flat_map (check_entry tm text ignore ((k, t) :: r)) ns =
  flat_map (check_entry tm text ignore r) ns.
Proof.
  induction ns as [|n ns IH]; simpl; intros Hn; [done|].
  rewrite IH by tauto. unfold check_entry at 1. simpl.
  destruct (String.eqb_spec n k) as [->|]; [tauto|done].
Qed.

Lemma run_all_check_loop_flat_map tm text ignore d :
  List.NoDup (map fst d) ->
  run_all_check_loop tm text ignore d =
  flat_map (check_entry tm text ignore d) (map fst d).
Proof.
  induction d as [|[k t] r IH]; simpl; intros H; [done|].
  inversion H as [|? ? Hn Hr]; subst.
  rewrite check_entry_cons, <- IH by done.
  unfold check_entry at 1. simpl. rewrite String.eqb_refl.
  destruct (func_message t text); [|done].
  destruct (existsb (String.eqb k) ignore); done.
Qed.

(* ------------------------------------------------------------------ *)
(** ** C6: [run_all_check] *)

(** C6: on the registry reached by any sequence of [ToolManager]
    operations, [run_all_check(text, ignore)] returns the descriptors of the
    registered tools whose fresh instance matches [text] and whose name is
    not ignored, each once, in the order names were first registered. *)
Theorem run_all_check_registered_matches (ops : list TMOp) (text : string)
    (ignore : option (list string)) :
  run_all_check (tm_run ops) text ignore =
  map Some (spec_run_all_check (regs_of ops) text (default [] ignore)).
Proof.
  unfold run_all_check, tm_run. rewrite tm_run_regs_from.
  set (regs := regs_of ops).
  set (tm := fold_left add_reg regs ToolManager_new).
  rewrite run_all_check_loop_flat_map by apply tm_of_regs_NoDup.
  unfold tm. rewrite tm_of_regs_keys. fold tm.
  unfold spec_run_all_check.
  induction (reg_names regs) as [|n ns IH]; simpl; [done|].
  rewrite map_app, IH. f_equal.
  unfold check_entry.
  destruct (tm_of_regs_get regs n) as [Ht Hf]. fold tm in Ht, Hf.
  unfold get_tool in Ht. rewrite Ht, Hf.
  destruct (reg_latest regs n) as [[f t]|]; simpl; [|done].
  destruct (func_message t text); simpl; unfold spec_run_all_check; simpl.
  - by destruct (existsb (String.eqb n) (default [] ignore)).
  - done.
Qed.

(* ------------------------------------------------------------------ *)
(** ** C9: the task stores are class attributes *)

Lemma sort_time_desc_snoc_min l c :
  Forall (fun y => time c <= time y) l ->
  sort_time_desc (l ++ [c]) = sort_time_desc l ++ [c].
Proof.
  intros H. rewrite sort_time_desc_snoc. apply ins_desc_end.
  eapply Forall_perm; [symmetry; apply (fold_ins_perm l [])|exact H].
Qed.

(** C9 (as it holds): instances created by [AuthReloader()] /
    [ChainReloader()] have no store of their own, so they share the class
    dict.  After [a.add_task(c)], [b.get_task(c.uuid)] on an [AuthReloader]
    returns [c]; on a [ChainReloader], [b.get_task(c.user_id)] returns
    exactly what [a.get_task(c.user_id)] would, which is [c] when no chain
    already queued for that user has a smaller time. *)
Theorem Reloaders_share_class_store (w : World) (a b : nat) (c : Chain) :
  w_auth_own w !! a = None -> w_auth_own w !! b = None ->
  w_chain_own w !! a = None -> w_chain_own w !! b = None ->
  (exists w', AuthReloader_get_task (AuthReloader_add_task w a c) b (uuid c)
                = Ok (Some c, w')) /\
  (exists w1, ChainReloader_add_task w a c = Ok w1 /\
     ChainReloader_get_task w1 b (user_id c) =
       ChainReloader_get_task w1 a (user_id c) /\
     (Forall (fun y => time c <= time y) (default [] (w_chain w !! user_id c)) ->
      exists w2, ChainReloader_get_task w1 b (user_id c) = Ok (Some c, w2))).
Proof.
  intros Haa Hab Hca Hcb. split.
  - unfold AuthReloader_add_task, AuthReloader_get_task. rewrite Haa. simpl.
    rewrite Hab. destruct (AuthReloader_get_task_once (w_auth w) c) as [a' [H1 _]].
    rewrite H1. simpl. eauto.
  - unfold ChainReloader_add_task. rewrite Hca, chain_add_task_ok. simpl.
    eexists. split; [reflexivity|].
    unfold ChainReloader_get_task. simpl. rewrite Hca, Hcb. split; [done|].
    intros Hmin. rewrite (chain_get_task_snoc _ _ (sort_time_desc (default [] (w_chain w !! user_id c))) c).
    + simpl. eauto.
    + by rewrite lookup_insert_eq, sort_time_desc_snoc_min.
Qed.

(** Two chains for user "u", at times 0 and 5. *)
Definition chain_u0 : Chain := mkChain "u" "addr" 0 PyNone "id0".
Definition chain_u5 : Chain := mkChain "u" "addr" 5 PyNone "id5".

(** The world after [ChainReloader().add_task(chain_u0)]. *)
Definition world_u0 : World :=
  match ChainReloader_add_task world0 0%nat chain_u0 with
  | Ok w => w
  | Raise _ => world0
  end.

Definition world_u0_u5 : World :=
  match ChainReloader_add_task world_u0 0%nat chain_u5 with
  | Ok w => w
  | Raise _ => world_u0
  end.

(** C9 counterexample: a [ChainReloader] [b] does not return the chain just
    added through [a] when an earlier-time chain of that user is queued:
    with [chain_u0] queued, [a.add_task(chain_u5)] then [b.get_task("u")]
    returns [chain_u0]. *)
Lemma ChainReloader_shared_not_last_added :
  ~ (forall (w : World) (a b : nat) (c : Chain) (w1 : World),
       a <> b -> w_chain_own w !! a = None -> w_chain_own w !! b = None ->
       ChainReloader_add_task w a c = Ok w1 ->
       exists w2, ChainReloader_get_task w1 b (user_id c) = Ok (Some c, w2)).
Proof.
  intros H.
  destruct (H world_u0 0%nat 1%nat chain_u5 world_u0_u5) as [w2 Hw2];
    [lia|reflexivity|reflexivity|vm_compute; reflexivity|].
  vm_compute in Hw2. discriminate Hw2.
Qed.

(* ------------------------------------------------------------------ *)
(** ** Concrete runs *)

Definition alice_chain (t : Z) (id : string) : Chain :=
  mkChain "alice" "addr" t PyNone id.

(** Chains with times 5, 1, 3 are dequeued as 1, 3, 5, then [None]. *)
Example chain_dequeue_5_1_3 :
  res_bind (chain_add_all ∅ [alice_chain 5 "a"; alice_chain 1 "b"; alice_chain 3 "c"])
    (fun c => res_bind (chain_get_n c "alice" 4) (fun '(r, _) => Ok r)) =
  Ok [Some (alice_chain 1 "b"); Some (alice_chain 3 "c"); Some (alice_chain 5 "a"); None].
Proof. vm_compute. reflexivity. Qed.

(** Two chains at time 1: the later one ("c") comes out first. *)
Example chain_dequeue_ties :
  res_bind (chain_add_all ∅ [alice_chain 1 "b"; alice_chain 4 "a"; alice_chain 1 "c"])
    (fun c => res_bind (chain_get_n c "alice" 3) (fun '(r, _) => Ok r)) =
  Ok [Some (alice_chain 1 "c"); Some (alice_chain 1 "b"); Some (alice_chain 4 "a")].
Proof. vm_compute. reflexivity. Qed.

Definition weather_fn : Function := mkFunction "weather" "current weather".
Definition broken_fn : Function := mkFunction "broken" "needs an api key".

Definition weather_tool : ToolType :=
  default_tool 1 weather_fn ["weather"] None (CheckBool true).
Definition broken_tool : ToolType :=
  default_tool 2 broken_fn ["weather"; "broken"] None (CheckStr "missing api key").

Definition example_regs : list (Function * ToolType) :=
  [(weather_fn, weather_tool); (broken_fn, broken_tool)].

(** The scenario of the spec: only weather is registered and matched. *)
Example run_all_check_weather :
  run_all_check (listen_all example_regs) "what's the weather today" None
    = [Some weather_fn] /\
  run_all_check (listen_all example_regs) "what's the weather today"
    (Some ["weather"]) = [].
Proof. split; vm_compute; reflexivity. Qed.

(** [re.compile('^/w$')]: matches "/w" only. *)
Definition pattern_slash_w : Pattern :=
  {| pat_match_at := fun s k => String.eqb s "/w" && Nat.eqb k 2 |}.

(** [re.compile('$')]: an empty match at position 0 only on "". *)
Definition pattern_dollar : Pattern :=
  {| pat_match_at := fun s k => Nat.eqb (String.length s) 0 && Nat.eqb k 0 |}.

Example anchored_patterns :
  re_match pattern_slash_w "/w" = true /\
  re_match pattern_slash_w "/w x" = false /\
  re_match pattern_dollar "" = true /\
  func_message (default_tool 4 weather_fn [] (Some pattern_dollar) (CheckBool true))
    "hello" = None /\
  func_message (default_tool 5 weather_fn [] (Some pattern_slash_w) (CheckBool true))
    "/w x" = None.
Proof. vm_compute. repeat split. Qed.

(** Two [Chain(...)] calls without [uuid] get the same uuid. *)
Example Chain_default_uuid_example :
  let cls := load_Chain_class "kN3Xz7" in
  uuid (Chain_new cls "alice" "addr" None PyNone None) =
  uuid (Chain_new cls "bob" "addr2" (Some 7) (PyInt 1) None).
Proof. reflexivity. Qed.

(* ------------------------------------------------------------------ *)
(** ** Witnesses *)

Lemma ChainReloader_dequeue_ascending_witness :
  StronglySorted time_ge (default [] ((∅ : gmap string (list Chain)) !! "alice")) /\
  Forall (fun c => user_id c = "alice")
    [alice_chain 5 "a"; alice_chain 1 "b"; alice_chain 3 "c"] /\
  exists chain' out chain'',
    chain_add_all ∅ [alice_chain 5 "a"; alice_chain 1 "b"; alice_chain 3 "c"]
      = Ok chain' /\
    chain_get_n chain' "alice"
      (length (default [] ((∅ : gmap string (list Chain)) !! "alice")) + 3)
      = Ok (map Some out, chain'') /\
    StronglySorted (fun a b => time a <= time b) out /\
    Permutation out (default [] ((∅ : gmap string (list Chain)) !! "alice") ++
      [alice_chain 5 "a"; alice_chain 1 "b"; alice_chain 3 "c"]) /\
    chain_get_task chain'' "alice" = Ok (None, chain'').
Proof.
  assert (H1 : StronglySorted time_ge
                 (default [] ((∅ : gmap string (list Chain)) !! "alice")))
    by (vm_compute; constructor).
  assert (H2 : Forall (fun c => user_id c = "alice")
                 [alice_chain 5 "a"; alice_chain 1 "b"; alice_chain 3 "c"])
    by (repeat constructor).
  split; [exact H1|]. split; [exact H2|].
  exact (ChainReloader_dequeue_ascending ∅ "alice" _ H1 H2).
Defined.

Lemma ChainReloader_ties_lifo_witness :
  default [] ((∅ : gmap string (list Chain)) !! "alice") = [] /\
  Forall (fun c => user_id c = "alice")
    [alice_chain 1 "b"; alice_chain 4 "a"; alice_chain 1 "c"] /\
  [alice_chain 1 "b"; alice_chain 4 "a"; alice_chain 1 "c"] <> [] /\
  exists chain' c chain'',
    chain_add_all ∅ [alice_chain 1 "b"; alice_chain 4 "a"; alice_chain 1 "c"]
      = Ok chain' /\
    chain_get_task chain' "alice" = Ok (Some c, chain'') /\
    last_min_time c [alice_chain 1 "b"; alice_chain 4 "a"; alice_chain 1 "c"].
Proof.
  assert (H1 : default [] ((∅ : gmap string (list Chain)) !! "alice") = [])
    by reflexivity.
  assert (H2 : Forall (fun c => user_id c = "alice")
                 [alice_chain 1 "b"; alice_chain 4 "a"; alice_chain 1 "c"])
    by (repeat constructor).
  assert (H3 : [alice_chain 1 "b"; alice_chain 4 "a"; alice_chain 1 "c"] <> [])
    by discriminate.
  split; [exact H1|]. split; [exact H2|]. split; [exact H3|].
  exact (ChainReloader_ties_lifo ∅ "alice" _ H1 H2 H3).
Defined.

Lemma lookup_miss_returns_None_witness :
  ((∅ : gmap string (list Chain)) !! "alice" = None \/
   (∅ : gmap string (list Chain)) !! "alice" = Some []) /\
  (∅ : gmap string Chain) !! "nope" = None /\
  ~ In "broken" (map fst (tm_tool (listen_all example_regs))) /\
  ~ In "broken" (map fst (tm_function (listen_all example_regs))) /\
  Forall (fun it => tool_id (snd it) <> tool_id broken_tool)
    (tm_tool (listen_all example_regs)) /\
  Forall (fun it => Function_eqb (snd it) broken_fn = false)
    (tm_function (listen_all example_regs)) /\
  chain_get_task ∅ "alice" = Ok (None, ∅) /\
  auth_get_task ∅ "nope" = Ok (None, ∅) /\
  get_tool (listen_all example_regs) "broken" = None /\
  get_function (listen_all example_regs) "broken" = None /\
  find_tool (listen_all example_regs) broken_tool = None /\
  find_function (listen_all example_regs) broken_fn = None.
Proof.
  assert (H1 : (∅ : gmap string (list Chain)) !! "alice" = None \/
               (∅ : gmap string (list Chain)) !! "alice" = Some [])
    by (left; reflexivity).
  assert (H2 : (∅ : gmap string Chain) !! "nope" = None) by reflexivity.
  assert (H3 : ~ In "broken" (map fst (tm_tool (listen_all example_regs))))
    by (vm_compute; intros [H|[]]; discriminate H).
  assert (H4 : ~ In "broken" (map fst (tm_function (listen_all example_regs))))
    by (vm_compute; intros [H|[]]; discriminate H).
  assert (H5 : Forall (fun it => tool_id (snd it) <> tool_id broken_tool)
                 (tm_tool (listen_all example_regs)))
    by (vm_compute; repeat constructor; discriminate).
  assert (H6 : Forall (fun it => Function_eqb (snd it) broken_fn = false)
                 (tm_function (listen_all example_regs)))
    by (vm_compute; repeat constructor).
  do 6 (split; [assumption|]).
  exact (lookup_miss_returns_None ∅ "alice" ∅ "nope" (listen_all example_regs)
           "broken" broken_tool broken_fn H1 H2 H3 H4 H5 H6).
Defined.

Lemma listener_rejected_never_registered_witness :
  pre_check broken_tool <> CheckBool true /\
  ~ In broken_tool (map snd (tm_tool (listen_all example_regs))) /\
  listen_all example_regs = listen_all (List.filter accepted example_regs) /\
  (forall text ignore,
     run_all_check (listen_all example_regs) text ignore =
     run_all_check (listen_all (List.filter accepted example_regs)) text ignore).
Proof.
  assert (H : pre_check broken_tool <> CheckBool true) by discriminate.
  split; [exact H|].
  exact (listener_rejected_never_registered example_regs broken_tool H).
Defined.

(** Two instances created at import time, as [AUTH_MANAGER] and another. *)
Definition world_two : World := snd (new_instance (snd (new_instance world0))).

Lemma Reloaders_share_class_store_witness :
  w_auth_own world_two !! 0%nat = None /\ w_auth_own world_two !! 1%nat = None /\
  w_chain_own world_two !! 0%nat = None /\ w_chain_own world_two !! 1%nat = None /\
  (exists w', AuthReloader_get_task (AuthReloader_add_task world_two 0 chain_u5) 1
                (uuid chain_u5) = Ok (Some chain_u5, w')) /\
  (exists w1, ChainReloader_add_task world_two 0 chain_u5 = Ok w1 /\
     ChainReloader_get_task w1 1 (user_id chain_u5) =
       ChainReloader_get_task w1 0 (user_id chain_u5) /\
     (Forall (fun y => time chain_u5 <= time y)
        (default [] (w_chain world_two !! user_id chain_u5)) ->
      exists w2, ChainReloader_get_task w1 1 (user_id chain_u5) = Ok (Some chain_u5, w2))).
Proof.
  assert (H1 : w_auth_own world_two !! 0%nat = None) by reflexivity.
  assert (H2 : w_auth_own world_two !! 1%nat = None) by reflexivity.
  assert (H3 : w_chain_own world_two !! 0%nat = None) by reflexivity.
  assert (H4 : w_chain_own world_two !! 1%nat = None) by reflexivity.
  do 4 (split; [assumption|]).
  exact (Reloaders_share_class_store world_two 0 1 chain_u5 H1 H2 H3 H4).
Defined.

(* ------------------------------------------------------------------ *)
(** ** Further properties of the stores and the registry *)

(** Calls on [CHAIN_MANAGER]. *)
Inductive ChainOp :=
| ChainAdd (task : Chain)
| ChainGet (user_id : string).

Fixpoint chain_run (chain : gmap string (list Chain)) (ops : list ChainOp)
    : res (gmap string (list Chain)) :=
  match ops with
  | [] => Ok chain
  | ChainAdd t :: r => res_bind (chain_add_task chain t) (fun c => chain_run c r)
  | ChainGet u :: r =>
      res_bind (chain_get_task chain u) (fun '(_, c) => chain_run c r)
  end.

(** Every user's list is ordered by non-increasing time. *)
Definition all_sorted (chain : gmap string (list Chain)) : Prop :=
  forall u l, chain !! u = Some l -> StronglySorted time_ge l.

Lemma StronglySorted_app_l {A} (R : A -> A -> Prop) l1 l2 :
  StronglySorted R (l1 ++ l2) -> StronglySorted R l1.
Proof.
  induction l1 as [|a r IH]; simpl; intros H; [constructor|].
  inversion H as [|? ? Hr Ha]; subst. constructor; [by apply IH|].
  apply List.Forall_forall. intros y Hy.
  eapply List.Forall_forall; [exact Ha|]. apply in_or_app. by left.
Qed.

Lemma all_sorted_insert chain u l :
  all_sorted chain -> StronglySorted time_ge l -> all_sorted (<[u := l]> chain).
Proof.
  intros H Hl v l' Hv. apply lookup_insert_Some in Hv as [[<- <-]|[_ Hv]];
    [done|by apply (H v)].
Qed.

Lemma chain_add_task_sorted chain t :
  all_sorted chain ->
  exists chain', chain_add_task chain t = Ok chain' /\ all_sorted chain'.
Proof.
  intros H. rewrite chain_add_task_ok. eexists. split; [reflexivity|].
  apply all_sorted_insert; [done|]. apply (fold_ins_sorted _ []). constructor.
Qed.

Lemma chain_get_task_sorted chain u :
  all_sorted chain ->
  exists r chain', chain_get_task chain u = Ok (r, chain') /\ all_sorted chain'.
Proof.
  intros H. destruct (default [] (chain !! u)) as [|x l] eqn:E.
  - exists None, chain. by rewrite chain_get_task_empty.
  - destruct (exists_last (l := x :: l)) as [l' [c Hlc]]; [done|].
    rewrite Hlc in E.
    assert (Hc : chain !! u = Some (l' ++ [c])).
    { destruct (chain !! u); simpl in E; [by subst|].
      by apply app_cons_not_nil in E. }
    exists (Some c), (<[u := l']> chain).
    rewrite (chain_get_task_snoc _ _ _ _ Hc). split; [done|].
    apply all_sorted_insert; [done|].
    eapply StronglySorted_app_l. exact (H u _ Hc).
Qed.

Lemma chain_run_sorted chain ops :
  all_sorted chain ->
  exists chain', chain_run chain ops = Ok chain' /\ all_sorted chain'.
Proof.
  revert chain. induction ops as [|[t|u] r IH]; intros chain H; simpl.
  - by exists chain.
  - destruct (chain_add_task_sorted chain t H) as [c [-> Hc]]. simpl. by apply IH.
  - destruct (chain_get_task_sorted chain u H) as [x [c [-> Hc]]]. simpl.
    by apply IH.
Qed.

(** X1: any sequence of [add_task] / [get_task] calls on the empty
    [ChainReloader] store raises nothing, and afterwards every user's list
    is ordered by non-increasing [time]. *)
Theorem ChainReloader_run_sorted (ops : list ChainOp) :
  exists chain', chain_run ∅ ops = Ok chain' /\
    forall u l, chain' !! u = Some l -> StronglySorted time_ge l.
Proof. apply chain_run_sorted. intros u l H. done. Qed.

(** X2: [add_task(t)] puts [t] into its user's list next to the chains
    already there (nothing lost or duplicated) and leaves the lists of the
    other users unchanged. *)
Theorem ChainReloader_add_task_contents (chain : gmap string (list Chain))
    (t : Chain) :
  exists l', chain_add_task chain t = Ok (<[user_id t := l']> chain) /\
    Permutation l' (default [] (chain !! user_id t) ++ [t]).
Proof.
  rewrite chain_add_task_ok. eexists. split; [reflexivity|].
  apply (fold_ins_perm _ []).
Qed.

(** X3: in any state reached by [add_task] / [get_task] calls, a
    [get_task(u)] that returns a chain [c] removes exactly that chain, the
    last of [u]'s list, and [c] has the least time of the list. *)
Theorem ChainReloader_get_task_min (ops : list ChainOp)
    (chain : gmap string (list Chain)) (u : string) (c : Chain)
    (chain' : gmap string (list Chain)) :
  chain_run ∅ ops = Ok chain ->
  chain_get_task chain u = Ok (Some c, chain') ->
  exists l, chain !! u = Some (l ++ [c]) /\ chain' = <[u := l]> chain /\
    Forall (fun y => time c <= time y) l.
Proof.
  intros Hrun Hget.
  destruct (ChainReloader_run_sorted ops) as [ch [Hch Hs]].
  rewrite Hrun in Hch. injection Hch as <-.
  destruct (default [] (chain !! u)) as [|x l] eqn:E.
  - rewrite chain_get_task_empty in Hget by done. discriminate.
  - destruct (exists_last (l := x :: l)) as [l' [c' Hlc]]; [done|].
    rewrite Hlc in E.
    assert (Hc : chain !! u = Some (l' ++ [c'])).
    { destruct (chain !! u); simpl in E; [by subst|].
      by apply app_cons_not_nil in E. }
    rewrite (chain_get_task_snoc _ _ _ _ Hc) in Hget.
    injection Hget as <- <-. exists l'. split; [done|]. split; [done|].
    pose proof (Hs u _ Hc) as Hsu.
    apply StronglySorted_app_inv in Hsu as [_ Hlt].
    apply List.Forall_forall. intros y Hy. apply (Hlt y c' Hy). by left.
Qed.

(** X4: [AuthReloader.add_task] overwrites: of two chains with the same
    uuid, added one after the other, only the second is ever returned, and
    only once. *)
Theorem AuthReloader_same_uuid_overwrites (auth : gmap string Chain)
    (c1 c2 : Chain) :
  uuid c1 = uuid c2 ->
  exists auth',
    auth_get_task (auth_add_task (auth_add_task auth c1) c2) (uuid c1)
      = Ok (Some c2, auth') /\
    auth_get_task auth' (uuid c1) = Ok (None, auth').
Proof.
  intros Heq. unfold auth_add_task. rewrite Heq, insert_insert_eq.
  apply (AuthReloader_get_task_once auth c2).
Qed.

(** X5: [AuthReloader.get_task(k)] returns what was stored under [k],
    leaves [k] absent and every other entry unchanged. *)
Theorem AuthReloader_get_task_removes (auth : gmap string Chain) (k : string) :
  exists auth', auth_get_task auth k = Ok (auth !! k, auth') /\
    auth' !! k = None /\ forall j, j <> k -> auth' !! j = auth !! j.
Proof.
  unfold auth_get_task. destruct (auth !! k) as [c|] eqn:E.
  - eexists. split; [reflexivity|]. split; [apply lookup_delete_eq|].
    intros j Hj. by rewrite lookup_delete_ne.
  - eexists. split; [reflexivity|]. done.
Qed.

(** The reverse scans of [find_tool] / [find_function]: the first key whose
    value passes [p], in insertion order. *)
Fixpoint first_key_where {V} (p : V -> bool) (d : list (string * V)) : option string :=
  match d with
  | [] => None
  | (k, v) :: r => if p v then Some k else first_key_where p r
  end.

Lemma find_tool_loop_first T d :
  find_tool_loop T d = first_key_where (fun t => Nat.eqb (tool_id t) (tool_id T)) d.
Proof. induction d as [|[k v] r IH]; simpl; [done|]. by rewrite IH. Qed.

Lemma find_function_loop_first F d :
  find_function_loop F d = first_key_where (fun f => Function_eqb f F) d.
Proof. induction d as [|[k v] r IH]; simpl; [done|]. by rewrite IH. Qed.

Lemma first_key_where_in {V} (p : V -> bool) d n :
  first_key_where p d = Some n -> In n (map fst d).
Proof.
  induction d as [|[k v] r IH]; simpl; [done|].
  destruct (p v); [intros [= <-]; by left|intros H; right; by apply IH].
Qed.

Lemma first_key_where_spec {V} (p : V -> bool) d :
  List.NoDup (map fst d) ->
  match first_key_where p d with
  | Some n => exists v, dict_get n d = Some v /\ p v = true
  | None => forall n v, dict_get n d = Some v -> p v = false
  end.
Proof.
  induction d as [|[k v] r IH]; simpl; intros Hnd.
  - intros n v H. discriminate.
  - inversion Hnd as [|? ? Hk Hr]; subst.
    destruct (p v) eqn:Ep.
    + exists v. by rewrite String.eqb_refl.
    + specialize (IH Hr). destruct (first_key_where p r) as [n|] eqn:Ef.
      * destruct IH as [v' [Hg Hp]]. exists v'.
        destruct (String.eqb_spec n k) as [->|]; [|done].
        exfalso. apply Hk. by eapply first_key_where_in.
      * intros n v' Hg. destruct (String.eqb_spec n k) as [->|].
        -- by injection Hg as <-.
        -- by apply (IH n).
Qed.

Lemma tm_of_regs_NoDup_function regs :
  List.NoDup (map fst (tm_function (fold_left add_reg regs ToolManager_new))).
Proof.
  induction regs as [|[[n f] t] regs IH] using rev_ind; [constructor|].
  rewrite fold_left_app. simpl. by apply NoDup_keys_setitem.
Qed.

(** X6: on the registry reached by any sequence of operations,
    [find_tool(tool)] returns a name under which [get_tool] gives that same
    class, and returns [None] only when no name maps to that class. *)
Theorem find_tool_get_tool (ops : list TMOp) (T : ToolType) :
  match find_tool (tm_run ops) T with
  | Some n => exists t, get_tool (tm_run ops) n = Some t /\ tool_id t = tool_id T
  | None => forall n t, get_tool (tm_run ops) n = Some t -> tool_id t <> tool_id T
  end.
Proof.
  unfold find_tool, get_tool. rewrite find_tool_loop_first.
  pose proof (first_key_where_spec (fun t => Nat.eqb (tool_id t) (tool_id T))
                (tm_tool (tm_run ops))) as H.
  unfold tm_run in *. rewrite tm_run_regs_from in *.
  specialize (H (tm_of_regs_NoDup _)).
  destruct (first_key_where _ _) as [n|].
  - destruct H as [t [Hg Hp]]. exists t. split; [done|]. by apply Nat.eqb_eq.
  - intros n t Hg. apply Nat.eqb_neq. by apply (H n).
Qed.

(** X7: likewise [find_function(func)] returns a name whose registered
    descriptor equals [func], and [None] only when no descriptor does. *)
Theorem find_function_get_function (ops : list TMOp) (F : Function) :
  match find_function (tm_run ops) F with
  | Some n => exists f, get_function (tm_run ops) n = Some f /\ Function_eqb f F = true
  | None => forall n f, get_function (tm_run ops) n = Some f -> Function_eqb f F = false
  end.
Proof.
  unfold find_function, get_function. rewrite find_function_loop_first.
  pose proof (first_key_where_spec (fun f => Function_eqb f F)
                (tm_function (tm_run ops))) as H.
  unfold tm_run in *. rewrite tm_run_regs_from in *.
  specialize (H (tm_of_regs_NoDup_function _)).
  destruct (first_key_where _ _) as [n|]; [done|].
  intros n f Hg. by apply (H n).
Qed.

(** X8: when [pre_check()] is [True], [listener(function)] registers the
    class and the descriptor under [function.name] (replacing an earlier
    registration of that name) and leaves every other name as it was. *)
Theorem listener_accepted_registers (F : Function) (T : ToolType)
    (tm : ToolManager) :
  pre_check T = CheckBool true ->
  get_tool (listener F T tm) (fname F) = Some T /\
  get_function (listener F T tm) (fname F) = Some F /\
  forall n, n <> fname F ->
    get_tool (listener F T tm) n = get_tool tm n /\
    get_function (listener F T tm) n = get_function tm n.
Proof.
  intros H. unfold listener. rewrite H. unfold get_tool, get_function. simpl.
  rewrite !dict_setitem_get_eq. split; [done|]. split; [done|].
  intros n Hn. by rewrite !dict_setitem_get_ne.
Qed.

(** X9: a tool with the default [func_message] one of whose keywords is
    the empty string matches every message (["" in s] is always true),
    whatever its pattern. *)
Theorem func_message_matches_every_text (id : nat) (f : Function)
    (kws : list string) (pat : option Pattern) (check : CheckResult) :
  In EmptyString kws ->
  forall message_text,
    func_message (default_tool id f kws pat check) message_text = Some f.
Proof.
  intros Hin s. simpl. unfold BaseTool_func_message.
  replace (keywords_hit kws s) with true; [done|].
  symmetry. apply keywords_hit_iff. exists EmptyString. split; [done|].
  by exists EmptyString, s.
Qed.

(** X10: [add_tool] with a name already registered keeps both mappings'
    key order (the name keeps the position of its first registration); a
    new name goes last in both. *)
Theorem add_tool_key_order (tm : ToolManager) (name : string) (f : Function)
    (t : ToolType) :
  map fst (tm_tool (add_tool tm name f t)) =
    (if existsb (String.eqb name) (map fst (tm_tool tm))
     then map fst (tm_tool tm) else map fst (tm_tool tm) ++ [name]) /\
  map fst (tm_function (add_tool tm name f t)) =
    (if existsb (String.eqb name) (map fst (tm_function tm))
     then map fst (tm_function tm) else map fst (tm_function tm) ++ [name]).
Proof. simpl. by rewrite !dict_setitem_keys_app. Qed.

(* ------------------------------------------------------------------ *)
(** ** Witnesses of the further properties *)

Definition ex_chain_ops : list ChainOp :=
  [ChainAdd (alice_chain 5 "a"); ChainAdd (alice_chain 1 "b");
   ChainAdd (mkChain "bob" "addr" 2 PyNone "d")].

Definition ex_chain_state : gmap string (list Chain) :=
  match chain_run ∅ ex_chain_ops with Ok c => c | Raise _ => ∅ end.

Definition ex_chain_state' : gmap string (list Chain) :=
  match chain_get_task ex_chain_state "alice" with
  | Ok (_, c) => c
  | Raise _ => ∅
  end.

Lemma ChainReloader_get_task_min_witness :
  chain_run ∅ ex_chain_ops = Ok ex_chain_state /\
  chain_get_task ex_chain_state "alice" = Ok (Some (alice_chain 1 "b"), ex_chain_state') /\
  exists l, ex_chain_state !! "alice" = Some (l ++ [alice_chain 1 "b"]) /\
    ex_chain_state' = <[ "alice" := l ]> ex_chain_state /\
    Forall (fun y => time (alice_chain 1 "b") <= time y) l.
Proof.
  assert (H1 : chain_run ∅ ex_chain_ops = Ok ex_chain_state)
    by (vm_compute; reflexivity).
  assert (H2 : chain_get_task ex_chain_state "alice"
                 = Ok (Some (alice_chain 1 "b"), ex_chain_state'))
    by (vm_compute; reflexivity).
  split; [exact H1|]. split; [exact H2|].
  exact (ChainReloader_get_task_min ex_chain_ops _ "alice" _ _ H1 H2).
Defined.

Definition ex_chain_class : ChainClass := load_Chain_class "kN3Xz7".
Definition ex_default_chain_1 : Chain :=
  Chain_new ex_chain_class "alice" "addr" None PyNone None.
Definition ex_default_chain_2 : Chain :=
  Chain_new ex_chain_class "bob" "addr2" (Some 7) (PyInt 1) None.

Lemma AuthReloader_same_uuid_overwrites_witness :
  uuid ex_default_chain_1 = uuid ex_default_chain_2 /\
  exists auth',
    auth_get_task (auth_add_task (auth_add_task ∅ ex_default_chain_1)
                     ex_default_chain_2) (uuid ex_default_chain_1)
      = Ok (Some ex_default_chain_2, auth') /\
    auth_get_task auth' (uuid ex_default_chain_1) = Ok (None, auth').
Proof.
  assert (H : uuid ex_default_chain_1 = uuid ex_default_chain_2) by reflexivity.
  split; [exact H|].
  exact (AuthReloader_same_uuid_overwrites ∅ _ _ H).
Defined.

Lemma listener_accepted_registers_witness :
  pre_check weather_tool = CheckBool true /\
  get_tool (listener weather_fn weather_tool ToolManager_new) (fname weather_fn)
    = Some weather_tool /\
  get_function (listener weather_fn weather_tool ToolManager_new) (fname weather_fn)
    = Some weather_fn /\
  forall n, n <> fname weather_fn ->
    get_tool (listener weather_fn weather_tool ToolManager_new) n
      = get_tool ToolManager_new n /\
    get_function (listener weather_fn weather_tool ToolManager_new) n
      = get_function ToolManager_new n.
Proof.
  assert (H : pre_check weather_tool = CheckBool true) by reflexivity.
  split; [exact H|].
  exact (listener_accepted_registers weather_fn weather_tool ToolManager_new H).
Defined.

Lemma func_message_matches_every_text_witness :
  In EmptyString ["weather"; EmptyString] /\
  func_message (default_tool 3 weather_fn ["weather"; EmptyString] None
                  (CheckBool true)) "hello" = Some weather_fn.
Proof.
  assert (H : In EmptyString ["weather"; EmptyString]) by (simpl; tauto).
  split; [exact H|].
  exact (func_message_matches_every_text 3 weather_fn _ None (CheckBool true) H "hello").
Defined.
